(** * PodLabelGuard: the pod label admission webhook

    A shallow embedding of [api/v1/pod_webhook.go] and a verification of the
    decision it takes: [Handle] and [matchesLabels], together with the
    library calls they are made of.  Every Go package the source imports
    and uses is a module of the same name below. *)

From Stdlib Require Import ZArith.
From stdpp Require Import gmap strings list fin_maps sorting.


(** ** Go values *)

(** A Go [map[string]string] is either the nil map or an allocated table.
    [None] is the nil map; reading a nil map behaves like reading an empty
    one, but the two are different values. *)
Abbreviation GoMap := (option (gmap string string)).

(** [m == nil] *)
Definition isNil (m : GoMap) : bool :=
  match m with
  | None => true
  | Some _ => false
  end.

(** [len(m)] *)
Definition len (m : GoMap) : nat :=
  match m with
  | None => 0
  | Some t => size t
  end.

(** [v, ok := m[k]]: [Some v] when [ok]. *)
Definition index (m : GoMap) (k : string) : option string :=
  match m with
  | None => None
  | Some t => t !! k
  end.

(** The (key, value) pairs a map holds, the nil map holding none. *)
Definition entries (m : GoMap) : gmap string string :=
  match m with
  | None => ∅
  | Some t => t
  end.

(** The line feed that [fmt.Println] and the formats' [\n] write. *)
Definition LF : string := String (Ascii.ascii_of_nat 10) EmptyString.

(** A Go [error] value: its [Error()] text, and whether the API machinery
    classifies it as a not-found status (what [errors.IsNotFound] reads). *)
Record error := mkError {
  Error : string;
  notFound : bool
}.

(** A call returning [(value, err)]: [Ok] is [err == nil]. *)
Inductive result (A : Type) : Type :=
| Ok (a : A)
| Err (err : error).
Arguments Ok {A} a.
Arguments Err {A} err.

(** ** Package [net/http] *)
Module http.
Definition StatusOK : Z := 200.
Definition StatusBadRequest : Z := 400.
Definition StatusForbidden : Z := 403.
Definition StatusInternalServerError : Z := 500.
End http.

(** ** Package [reflect] *)
Module reflect.

(** [reflect.DeepEqual] at type [map[string]string], as the Go library
    documents it for maps: both nil or both non-nil, the same length,
    and every key of the first maps in the second to an equal value. *)
Definition DeepEqual (v1 v2 : GoMap) : bool :=
  match v1, v2 with
  | None, None => true
  | Some t1, Some t2 =>
      (size t1 =? size t2)%nat
      && forallb (fun kv : string * string =>
                    match t2 !! kv.1 with
                    | Some val2 => String.eqb kv.2 val2
                    | None => false
                    end)
                 (map_to_list t1)
  | _, _ => false
  end.

End reflect.

(** ** Package [k8s.io/apimachinery/pkg/api/errors] *)
Module errors.
Definition IsNotFound (err : error) : bool := notFound err.
End errors.

(** ** Package [k8s.io/apimachinery/pkg/labels]

    The source imports this package and [matchesLabels] consists of two
    calls into it; the package is not part of the repository.  Its
    definitions below keep the package's structure: a selector built from
    a label set is a list of requirements, one per pair, ordered by key,
    and a selector matches when every requirement does. *)
Module labels.

(** The operators of package [selection] that read a requirement's key and
    values as strings; [GreaterThan] and [LessThan], which parse integers
    and are never built from a label set, are left out. *)
Inductive Operator :=
| DoesNotExist | Equals | DoubleEquals | In | NotEquals | NotIn | Exists.

Record Requirement := mkRequirement {
  key : string;
  operator : Operator;
  strValues : list string
}.

(** [Set.Has] *)
Definition Has (ls : GoMap) (label : string) : bool :=
  match index ls label with
  | Some _ => true
  | None => false
  end.

(** [Set.Get]: the zero string when the label is missing. *)
Definition Get (ls : GoMap) (label : string) : string :=
  match index ls label with
  | Some v => v
  | None => ""
  end.

Definition hasValue (r : Requirement) (value : string) : bool :=
  existsb (String.eqb value) (strValues r).

(** Modelled from the spec: [Requirement.Matches], absent from the
    repository.  For the equality requirements a label set gives rise to,
    the label set must contain key k with value v, compared as exact
    strings; the other operators of the package that read only the key
    and the values are the negation and the presence tests. *)
Definition Requirement_Matches (r : Requirement) (ls : GoMap) : bool :=
  match operator r with
  | In | Equals | DoubleEquals =>
      if negb (Has ls (key r)) then false else hasValue r (Get ls (key r))
  | NotIn | NotEquals =>
      if negb (Has ls (key r)) then true
      else negb (hasValue r (Get ls (key r)))
  | Exists => Has ls (key r)
  | DoesNotExist => negb (Has ls (key r))
  end.

(** The order [sort.Sort(ByKey(requirements))] puts requirements in. *)
Definition ByKey (a b : Requirement) : Prop :=
  String.leb (key a) (key b) = true.

#[global] Instance ByKey_dec (a b : Requirement) : Decision (ByKey a b).
Proof. unfold ByKey. apply _. Defined.

(** Modelled from the spec: [Set.AsSelectorPreValidated] (that is
    [SelectorFromValidatedSet]), absent from the repository.  A selector
    is a mapping from label key to required value: the nil and the empty
    set give the selector without requirements, any other set one
    [Equals] requirement per (k,v). *)
Definition AsSelectorPreValidated (ls : GoMap) : list Requirement :=
  if isNil ls || (len ls =? 0)%nat then []
  else
    merge_sort ByKey
      (map (fun kv : string * string => mkRequirement kv.1 Equals [kv.2])
           (map_to_list (entries ls))).

(** Modelled from the spec: [internalSelector.Matches], absent from the
    repository.  A label set satisfies a selector iff it satisfies every
    requirement of the selector. *)
Definition Matches (s : list Requirement) (l : GoMap) : bool :=
  forallb (fun r => Requirement_Matches r l) s.

End labels.

(** ** Package [k8s.io/apimachinery/pkg/apis/meta/v1]: the label selector *)
Module metav1.

Inductive LabelSelectorOperator :=
| LabelSelectorOpIn
| LabelSelectorOpNotIn
| LabelSelectorOpExists
| LabelSelectorOpDoesNotExist.

Record LabelSelectorRequirement := mkLabelSelectorRequirement {
  Key : string;
  Operator : LabelSelectorOperator;
  Values : list string
}.

Record LabelSelector := mkLabelSelector {
  MatchLabels : GoMap;
  MatchExpressions : list LabelSelectorRequirement
}.

(** The [Status] an admission response carries. *)
Record Status := mkStatus {
  Code : Z;
  Reason : string;
  Message : string
}.

End metav1.

(** ** Package [k8s.io/api/core/v1]: the fields of a pod the webhook reads *)
Module corev1.
Record Pod := mkPod {
  Name : string;
  Namespace : string;
  Labels : GoMap
}.
End corev1.

(** ** Package [k8s.io/api/networking/v1] *)
Module networkingv1.

Record NetworkPolicySpec := mkNetworkPolicySpec {
  PodSelector : metav1.LabelSelector
}.

Record NetworkPolicy := mkNetworkPolicy {
  Name : string;
  Namespace : string;
  Spec : NetworkPolicySpec
}.

End networkingv1.

(** ** Package [sigs.k8s.io/controller-runtime/pkg/client] *)
Module client.

Record ObjectKey := mkObjectKey {
  Namespace : string;
  Name : string
}.

(** The cluster-state store as the webhook sees it: [Get] of a pod by
    key, and [List] of the network policies with the option
    [InNamespace]. *)
Record Client := mkClient {
  Get : ObjectKey -> result corev1.Pod;
  List : string -> result (list networkingv1.NetworkPolicy)
}.

End client.

(** ** Package [k8s.io/api/admission/v1] *)
Module admissionv1.

Record AdmissionResponse := mkAdmissionResponse {
  Allowed : bool;
  Result : metav1.Status;
  Warnings : list string
}.

End admissionv1.

(** ** Package [sigs.k8s.io/controller-runtime/pkg/webhook/admission] *)
Module admission.

(** The fields of the admission request the webhook reads; [Object] is
    the raw payload the decoder turns into a pod. *)
Record Request := mkRequest {
  Name : string;
  Namespace : string;
  Object : string
}.

(** A response embeds the [AdmissionResponse]; the webhook builds no
    patches. *)
Record Response := mkResponse {
  AdmissionResponse : admissionv1.AdmissionResponse
}.

Record Decoder := mkDecoder {
  Decode : Request -> result corev1.Pod
}.

Definition ValidationResponse (allowed : bool) (message : string) : Response :=
  let code := if allowed then http.StatusOK else http.StatusForbidden in
  let reason := if allowed then "" else "Forbidden" in
  mkResponse
    (admissionv1.mkAdmissionResponse allowed (metav1.mkStatus code reason message) []).

Definition Allowed (message : string) : Response :=
  ValidationResponse true message.

Definition Denied (message : string) : Response :=
  ValidationResponse false message.

Definition Errored (code : Z) (err : error) : Response :=
  mkResponse
    (admissionv1.mkAdmissionResponse false (metav1.mkStatus code "" (Error err)) []).

Definition WithWarnings (r : Response) (warnings : list string) : Response :=
  mkResponse
    (admissionv1.mkAdmissionResponse
       (admissionv1.Allowed (AdmissionResponse r))
       (admissionv1.Result (AdmissionResponse r))
       (admissionv1.Warnings (AdmissionResponse r) ++ warnings)).

End admission.

(** ** [api/v1/pod_webhook.go] *)

Record PodValidator := mkPodValidator {
  Client : client.Client;
  decoder : admission.Decoder
}.

Definition NewPodValidator (c : client.Client) (d : admission.Decoder) : PodValidator :=
  mkPodValidator c d.

Definition matchesLabels (podslabels netPolLabels : GoMap) : bool :=
  let selector := labels.AsSelectorPreValidated netPolLabels in
  labels.Matches selector podslabels.

(** The loop of [Handle] over [networkPolicyList.Items]: [true] when it
    leaves through the [return] in its body, at the first policy whose
    [MatchLabels] match the original pod's labels. *)
Fixpoint ReferencedBy (originalLabels : GoMap)
    (items : list networkingv1.NetworkPolicy) : bool :=
  match items with
  | [] => false
  | networkPolicy :: rest =>
      if matchesLabels originalLabels
           (metav1.MatchLabels
              (networkingv1.PodSelector (networkingv1.Spec networkPolicy)))
      then true
      else ReferencedBy originalLabels rest
  end.

(** [Handle] returns the lines it prints on standard output, in order,
    and the admission response. *)
Definition Handle (v : PodValidator) (req : admission.Request)
    : list string * admission.Response :=
  match admission.Decode (decoder v) req with
  | Err err =>
      ( ["Error decoding pod: " +:+ Error err +:+ LF],
        admission.Errored http.StatusBadRequest err )
  | Ok pod =>
      let out :=
        ["Received pod label validator request for "
           +:+ corev1.Name pod +:+ LF +:+ LF] in
      match client.Get (Client v)
              (client.mkObjectKey (admission.Namespace req) (admission.Name req)) with
      | Err err =>
          if negb (errors.IsNotFound err) then
            ( out ++ ["Error getting original pod: " +:+ Error err +:+ LF],
              admission.Errored http.StatusInternalServerError err )
          else
            ( out ++ ["Original pod not found, assuming this is a new pod creation" +:+ LF],
              admission.Allowed "New pod creation" )
      | Ok originalPod =>
          if reflect.DeepEqual (corev1.Labels originalPod) (corev1.Labels pod) then
            ( out ++ ["No label changes detected for pod: " +:+ corev1.Name pod +:+ LF],
              admission.Allowed "No label changes detected" )
          else
            match client.List (Client v) (corev1.Namespace pod) with
            | Err err =>
                ( out ++ ["Error listing network policies: " +:+ Error err +:+ LF],
                  admission.Errored http.StatusInternalServerError err )
            | Ok items =>
                if ReferencedBy (corev1.Labels originalPod) items then
                  ( out ++ ["Labels for pod " +:+ corev1.Name pod
                              +:+ " are referenced in a NetworkPolicy" +:+ LF],
                    admission.WithWarnings
                      (admission.Allowed "")
                      ["Pod labels are referenced in a NetworkPolicy"] )
                else
                  ( out ++ ["Pod " +:+ corev1.Name pod
                              +:+ " labels are not referenced in any NetworkPolicy" +:+ LF],
                    admission.Allowed
                      "Labels are not referenced in any NetworkPolicy" )
            end
      end
  end.


(** * Verification *)

(** The response of [Handle] alone, and its three fields. *)
Definition response (v : PodValidator) (req : admission.Request) : admission.Response :=
  (Handle v req).2.

Definition allowed (r : admission.Response) : bool :=
  admissionv1.Allowed (admission.AdmissionResponse r).

Definition warnings (r : admission.Response) : list string :=
  admissionv1.Warnings (admission.AdmissionResponse r).

Definition message (r : admission.Response) : string :=
  metav1.Message (admissionv1.Result (admission.AdmissionResponse r)).

Definition code (r : admission.Response) : Z :=
  metav1.Code (admissionv1.Result (admission.AdmissionResponse r)).

(** The lines [Handle] prints. *)
Definition output (v : PodValidator) (req : admission.Request) : list string :=
  (Handle v req).1.


(** The response of the branch of [Handle] that found a referencing policy. *)
Definition AllowedWithWarning : admission.Response :=
  admission.WithWarnings (admission.Allowed "")
    ["Pod labels are referenced in a NetworkPolicy"].

(** The key [Handle] fetches the original pod by. *)
Definition originalKey (req : admission.Request) : client.ObjectKey :=
  client.mkObjectKey (admission.Namespace req) (admission.Name req).

(** The part of a policy the loop of [Handle] reads. *)
Definition selectorOf (networkPolicy : networkingv1.NetworkPolicy) : GoMap :=
  metav1.MatchLabels (networkingv1.PodSelector (networkingv1.Spec networkPolicy)).

(** ** The scenarios of the specification, as concrete runs *)
Module Scenario.

Definition app (value : string) : GoMap := Some {[ "app" := value ]}.

Definition policy (name : string) (matchLabels : GoMap)
    (exprs : list metav1.LabelSelectorRequirement) : networkingv1.NetworkPolicy :=
  networkingv1.mkNetworkPolicy name "prod"
    (networkingv1.mkNetworkPolicySpec (metav1.mkLabelSelector matchLabels exprs)).

(** A policy whose pod selector has expressions only. *)
Definition exprOnly : networkingv1.NetworkPolicy :=
  policy "deny-db" None
    [metav1.mkLabelSelectorRequirement "tier" metav1.LabelSelectorOpNotIn ["db"]].

Definition request : admission.Request :=
  admission.mkRequest "web-0" "prod" "{}".

Definition transient : error := mkError "connection refused" false.
Definition missing : error := mkError "pods web-0 not found" true.

(** A validator whose decoder yields a pod with the [proposed] labels and
    whose store answers [Get] with [previous] and [List] with [policies],
    whatever is asked. *)
Definition validator (proposed : GoMap) (previous : result corev1.Pod)
    (policies : result (list networkingv1.NetworkPolicy)) : PodValidator :=
  NewPodValidator
    (client.mkClient (fun _ => previous) (fun _ => policies))
    (admission.mkDecoder (fun _ => Ok (corev1.mkPod "web-0" "prod" proposed))).

Definition stored (previous : GoMap) : result corev1.Pod :=
  Ok (corev1.mkPod "web-0" "prod" previous).

End Scenario.

(** ** A store that answers by namespace *)
Module Cluster.

(** The policies of namespace "staging"; listing any other namespace
    fails with the error given. *)
Definition listStaging (elsewhere : error) (ns : string)
    : result (list networkingv1.NetworkPolicy) :=
  if String.eqb ns "staging"
  then Ok [Scenario.policy "p" (Scenario.app "x") []]
  else Err elsewhere.

(** The pod "web-0" of namespace "prod"; any other key is not found. *)
Definition getProd (key : client.ObjectKey) : result corev1.Pod :=
  if String.eqb (client.Namespace key) "prod" && String.eqb (client.Name key) "web-0"
  then Scenario.stored (Scenario.app "x")
  else Err Scenario.missing.

(** A decoder whose pod says it lives in "staging", whatever the request
    says. *)
Definition decodeStaging : admission.Decoder :=
  admission.mkDecoder (fun _ => Ok (corev1.mkPod "web-0" "staging" (Scenario.app "y"))).

Definition failing (err : error) : admission.Decoder :=
  admission.mkDecoder (fun _ => Err err).

End Cluster.

Example scenario_A :
  response (Scenario.validator (Scenario.app "x") (Err Scenario.missing) (Ok [])) Scenario.request
  = admission.Allowed "New pod creation".
Proof. reflexivity. Qed.

Example scenario_B :
  response (Scenario.validator (Scenario.app "x") (Scenario.stored (Scenario.app "x")) (Ok []))
          Scenario.request
  = admission.Allowed "No label changes detected".
Proof. vm_compute. reflexivity. Qed.

Example scenario_C :
  response (Scenario.validator (Scenario.app "y") (Scenario.stored (Scenario.app "x"))
             (Ok [Scenario.policy "p" (Scenario.app "x") []]))
          Scenario.request
  = AllowedWithWarning.
Proof. vm_compute. reflexivity. Qed.

Example scenario_D :
  response (Scenario.validator (Scenario.app "y") (Scenario.stored (Scenario.app "x"))
             (Ok [Scenario.policy "p" (Scenario.app "z") []]))
          Scenario.request
  = admission.Allowed "Labels are not referenced in any NetworkPolicy".
Proof. vm_compute. reflexivity. Qed.

(** ** The change detector: [reflect.DeepEqual] on label maps *)

Section ChangeDetector.

Implicit Types previous proposed : GoMap.

Lemma DeepEqual_tables (t1 t2 : gmap string string) :
  reflect.DeepEqual (Some t1) (Some t2) = true ↔ t1 = t2.
Proof.
  cbn [reflect.DeepEqual].
  rewrite andb_true_iff, Nat.eqb_eq, forallb_forall.
  split.
  - intros [Hsize Hall].
    apply map_subseteq_size_eq; [| lia].
    apply map_subseteq_spec. intros k x Hk.
    specialize (Hall (k, x)). cbn in Hall.
    destruct (t2 !! k) as [y|] eqn:Hy.
    + f_equal. symmetry. apply String.eqb_eq, Hall.
      apply list_elem_of_In, elem_of_map_to_list, Hk.
    + discriminate Hall.
      apply list_elem_of_In, elem_of_map_to_list, Hk.
  - intros ->. split; [reflexivity |].
    intros [k x] Hin. cbn.
    apply list_elem_of_In, elem_of_map_to_list in Hin.
    rewrite Hin. apply String.eqb_refl.
Qed.

Lemma DeepEqual_true_iff previous proposed :
  reflect.DeepEqual previous proposed = true ↔ previous = proposed.
Proof.
  destruct previous as [t1|], proposed as [t2|]; try (cbn; split; congruence).
  rewrite DeepEqual_tables. split; congruence.
Qed.

Lemma DeepEqual_false_iff previous proposed :
  reflect.DeepEqual previous proposed = false ↔ previous ≠ proposed.
Proof.
  rewrite <- DeepEqual_true_iff. destruct (reflect.DeepEqual previous proposed); split; congruence.
Qed.

Lemma GoMap_eq_iff previous proposed :
  previous = proposed ↔ (previous = None ↔ proposed = None) ∧ entries previous = entries proposed.
Proof.
  split.
  - intros ->. tauto.
  - intros [Hnil Hent].
    destruct previous as [t1|], proposed as [t2|]; cbn in Hent.
    + congruence.
    + destruct Hnil as [_ Hnil]. discriminate Hnil. reflexivity.
    + destruct Hnil as [Hnil _]. discriminate Hnil. reflexivity.
    + reflexivity.
Qed.

End ChangeDetector.

(** ** The selector matcher: [matchesLabels] *)

Section SelectorMatcher.

Implicit Types podslabels netPolLabels : GoMap.

(** One [Equals] requirement built from the pair (k,v) holds of a label
    set exactly when the set maps k to v. *)
Lemma Requirement_Matches_Equals podslabels k v :
  labels.Requirement_Matches (labels.mkRequirement k labels.Equals [v]) podslabels = true
  ↔ index podslabels k = Some v.
Proof.
  unfold labels.Requirement_Matches, labels.Has, labels.Get, labels.hasValue.
  cbn. destruct (index podslabels k) as [w|]; cbn.
  - rewrite orb_false_r, String.eqb_eq. split; congruence.
  - split; discriminate.
Qed.

Lemma index_entries (m : GoMap) k : index m k = entries m !! k.
Proof. destruct m; [reflexivity |]. cbn. symmetry. apply lookup_empty. Qed.

Lemma Matches_requirements_of podslabels (t : gmap string string) :
  labels.Matches
    (merge_sort labels.ByKey
       (map (fun kv : string * string => labels.mkRequirement kv.1 labels.Equals [kv.2])
            (map_to_list t)))
    podslabels = true
  ↔ ∀ k v, t !! k = Some v → index podslabels k = Some v.
Proof.
  unfold labels.Matches. rewrite forallb_forall. split.
  - intros Hall k v Hk.
    apply Requirement_Matches_Equals, Hall.
    apply (Permutation_in _
             (Permutation_sym (merge_sort_Permutation labels.ByKey _))).
    apply in_map_iff. exists (k, v). split; [reflexivity |].
    apply list_elem_of_In, elem_of_map_to_list, Hk.
  - intros Hall r Hr.
    apply (Permutation_in _ (merge_sort_Permutation labels.ByKey _)) in Hr.
    apply in_map_iff in Hr as [[k v] [<- Hkv]].
    apply Requirement_Matches_Equals, Hall, elem_of_map_to_list, list_elem_of_In, Hkv.
Qed.

Lemma matchesLabels_iff podslabels netPolLabels :
  matchesLabels podslabels netPolLabels = true
  ↔ ∀ k v, index netPolLabels k = Some v → index podslabels k = Some v.
Proof.
  unfold matchesLabels, labels.AsSelectorPreValidated.
  destruct netPolLabels as [t|]; cbn [isNil len entries index orb].
  - destruct (size t =? 0)%nat eqn:Hsize.
    + apply Nat.eqb_eq, map_size_empty_inv in Hsize. subst t.
      split; [| reflexivity].
      intros _ k v Hk. rewrite lookup_empty in Hk. discriminate.
    + apply Matches_requirements_of.
  - split; [| reflexivity]. intros _ k v Hk. discriminate.
Qed.

Lemma matchesLabels_no_requirements podslabels netPolLabels :
  len netPolLabels = 0 → matchesLabels podslabels netPolLabels = true.
Proof.
  intros Hlen. apply matchesLabels_iff. intros k v Hk.
  destruct netPolLabels as [t|]; [| discriminate].
  cbn in Hlen, Hk. apply map_size_empty_inv in Hlen. subst t.
  rewrite lookup_empty in Hk. discriminate.
Qed.

End SelectorMatcher.

(** ** The policy reference scanner: the loop of [Handle] *)

Section PolicyScanner.

Lemma ReferencedBy_true_iff originalLabels items :
  ReferencedBy originalLabels items = true
  ↔ ∃ networkPolicy, networkPolicy ∈ items
       ∧ matchesLabels originalLabels (selectorOf networkPolicy) = true.
Proof.
  induction items as [|np rest IH]; cbn [ReferencedBy].
  - split; [discriminate |]. intros (np & Hin & _). inversion Hin.
  - fold (selectorOf np).
    destruct (matchesLabels originalLabels (selectorOf np)) eqn:Hm.
    + split; [| reflexivity]. intros _. exists np. split; [left | exact Hm].
    + rewrite IH. split.
      * intros (q & Hin & Hq). exists q. split; [right; exact Hin | exact Hq].
      * intros (q & Hin & Hq). apply elem_of_cons in Hin as [-> | Hin].
        -- congruence.
        -- exists q. split; assumption.
Qed.

Lemma ReferencedBy_Permutation originalLabels items items' :
  items ≡ₚ items' →
  ReferencedBy originalLabels items = ReferencedBy originalLabels items'.
Proof.
  intros Hperm.
  destruct (ReferencedBy originalLabels items') eqn:H'.
  - apply ReferencedBy_true_iff. apply ReferencedBy_true_iff in H' as (np & Hin & Hm).
    exists np. split; [rewrite Hperm; exact Hin | exact Hm].
  - destruct (ReferencedBy originalLabels items) eqn:H; [| reflexivity].
    rewrite <- H'. symmetry.
    apply ReferencedBy_true_iff. apply ReferencedBy_true_iff in H as (np & Hin & Hm).
    exists np. split; [rewrite <- Hperm; exact Hin | exact Hm].
Qed.

Lemma ReferencedBy_selectors originalLabels items items' :
  map selectorOf items = map selectorOf items' →
  ReferencedBy originalLabels items = ReferencedBy originalLabels items'.
Proof.
  revert items'. induction items as [|np rest IH]; intros [|np' rest'] Heq;
    try discriminate Heq; [reflexivity |].
  cbn in Heq. injection Heq as Hsel Hrest.
  cbn [ReferencedBy]. fold (selectorOf np) (selectorOf np').
  rewrite Hsel, (IH rest' Hrest). reflexivity.
Qed.

End PolicyScanner.

(** ** The decision engine: [Handle] *)

Section DecisionEngine.

Variables (v : PodValidator) (req : admission.Request) (pod : corev1.Pod).
Hypothesis Hdecode : admission.Decode (decoder v) req = Ok pod.

Lemma response_not_found err :
  client.Get (Client v) (originalKey req) = Err err →
  errors.IsNotFound err = true →
  response v req = admission.Allowed "New pod creation".
Proof.
  intros Hget Hnf. unfold response, Handle, originalKey in *.
  rewrite Hdecode, Hget, Hnf. reflexivity.
Qed.

Lemma response_fetch_error err :
  client.Get (Client v) (originalKey req) = Err err →
  errors.IsNotFound err = false →
  response v req = admission.Errored http.StatusInternalServerError err.
Proof.
  intros Hget Hnf. unfold response, Handle, originalKey in *.
  rewrite Hdecode, Hget, Hnf. reflexivity.
Qed.

Lemma response_unchanged originalPod :
  client.Get (Client v) (originalKey req) = Ok originalPod →
  reflect.DeepEqual (corev1.Labels originalPod) (corev1.Labels pod) = true →
  response v req = admission.Allowed "No label changes detected".
Proof.
  intros Hget Heq. unfold response, Handle, originalKey in *.
  rewrite Hdecode, Hget, Heq. reflexivity.
Qed.

Lemma response_changed originalPod :
  client.Get (Client v) (originalKey req) = Ok originalPod →
  reflect.DeepEqual (corev1.Labels originalPod) (corev1.Labels pod) = false →
  response v req =
    match client.List (Client v) (corev1.Namespace pod) with
    | Err err => admission.Errored http.StatusInternalServerError err
    | Ok items =>
        if ReferencedBy (corev1.Labels originalPod) items
        then AllowedWithWarning
        else admission.Allowed "Labels are not referenced in any NetworkPolicy"
    end.
Proof.
  intros Hget Hneq. unfold response, Handle, originalKey in *.
  rewrite Hdecode, Hget, Hneq.
  destruct (client.List (Client v) (corev1.Namespace pod)) as [items|err];
    [| reflexivity].
  destruct (ReferencedBy (corev1.Labels originalPod) items); reflexivity.
Qed.

End DecisionEngine.

(** * The claims *)

(** C1: the decision engine never denies.  Whenever the decoder yields a
    pod, the lookup of the previous pod either succeeds or reports
    not-found, and the policy list (if asked for) is delivered, the
    response is an allow (status 200), with no warning or with the single
    policy warning; and when the previous labels are referenced by a policy
    the response is still the allow, with the warning attached. *)
Theorem Handle_never_denies (v : PodValidator) (req : admission.Request)
    (pod : corev1.Pod)
    (Hdecode : admission.Decode (decoder v) req = Ok pod)
    (Hget : ∀ err, client.Get (Client v) (originalKey req) = Err err →
                   errors.IsNotFound err = true)
    (Hlist : ∀ err, client.List (Client v) (corev1.Namespace pod) ≠ Err err) :
  allowed (response v req) = true
  ∧ (∀ reason, response v req ≠ admission.Denied reason)
  ∧ (warnings (response v req) = []
     ∨ warnings (response v req) = ["Pod labels are referenced in a NetworkPolicy"])
  ∧ (∀ originalPod items,
       client.Get (Client v) (originalKey req) = Ok originalPod →
       reflect.DeepEqual (corev1.Labels originalPod) (corev1.Labels pod) = false →
       client.List (Client v) (corev1.Namespace pod) = Ok items →
       ReferencedBy (corev1.Labels originalPod) items = true →
       response v req = AllowedWithWarning ∧ allowed AllowedWithWarning = true).
Proof.
  assert (Hcases :
    response v req = admission.Allowed "New pod creation"
    ∨ response v req = admission.Allowed "No label changes detected"
    ∨ response v req = admission.Allowed "Labels are not referenced in any NetworkPolicy"
    ∨ response v req = AllowedWithWarning).
  { destruct (client.Get (Client v) (originalKey req)) as [originalPod|err] eqn:Hg.
    - destruct (reflect.DeepEqual (corev1.Labels originalPod) (corev1.Labels pod)) eqn:Heq.
      + right; left. eapply response_unchanged; eauto.
      + rewrite (response_changed v req pod Hdecode originalPod Hg Heq).
        destruct (client.List (Client v) (corev1.Namespace pod)) as [items|err] eqn:Hl.
        * destruct (ReferencedBy (corev1.Labels originalPod) items); auto.
        * exfalso. exact (Hlist err eq_refl).
    - left. eapply response_not_found; eauto. }
  assert (Hallowed : allowed (response v req) = true)
    by (destruct Hcases as [-> | [-> | [-> | ->]]]; reflexivity).
  split; [exact Hallowed |]. split; [| split].
  - intros reason Hdenied. rewrite Hdenied in Hallowed. discriminate Hallowed.
  - destruct Hcases as [-> | [-> | [-> | ->]]]; auto.
  - intros originalPod items Hg Hchanged Hl Href.
    rewrite (response_changed v req pod Hdecode originalPod Hg Hchanged), Hl, Href.
    split; reflexivity.
Qed.

Lemma Handle_never_denies_witness :
  allowed
    (response
       (Scenario.validator (Scenario.app "y") (Scenario.stored (Scenario.app "x"))
          (Ok [Scenario.policy "p" (Scenario.app "x") []]))
       Scenario.request) = true.
Proof.
  refine (proj1 (Handle_never_denies _ _ (corev1.mkPod "web-0" "prod" (Scenario.app "y"))
                   _ _ _)).
  - reflexivity.
  - intros err H. discriminate H.
  - intros err H. discriminate H.
Defined.

(** C2: whenever the policy check runs (the previous pod exists and the
    labels changed), it reads the previous pod's labels: the response
    carries a warning iff some listed policy's selector matches the
    previous labels, and two runs with the same previous pod and the same
    policies give the same warnings whatever labels are proposed. *)
Theorem Handle_checks_previous_labels (v : PodValidator) (req : admission.Request)
    (pod originalPod : corev1.Pod) (items : list networkingv1.NetworkPolicy)
    (Hdecode : admission.Decode (decoder v) req = Ok pod)
    (Hget : client.Get (Client v) (originalKey req) = Ok originalPod)
    (Hchanged : reflect.DeepEqual (corev1.Labels originalPod) (corev1.Labels pod) = false)
    (Hlist : client.List (Client v) (corev1.Namespace pod) = Ok items) :
  (warnings (response v req) ≠ []
   ↔ ∃ networkPolicy, networkPolicy ∈ items
        ∧ matchesLabels (corev1.Labels originalPod) (selectorOf networkPolicy) = true)
  ∧ (∀ v' req' pod',
       admission.Decode (decoder v') req' = Ok pod' →
       client.Get (Client v') (originalKey req') = Ok originalPod →
       reflect.DeepEqual (corev1.Labels originalPod) (corev1.Labels pod') = false →
       client.List (Client v') (corev1.Namespace pod') = Ok items →
       response v' req' = response v req).
Proof.
  split.
  - rewrite <- ReferencedBy_true_iff.
    rewrite (response_changed v req pod Hdecode originalPod Hget Hchanged), Hlist.
    destruct (ReferencedBy (corev1.Labels originalPod) items); cbn; split;
      congruence.
  - intros v' req' pod' Hd' Hg' Hc' Hl'.
    rewrite (response_changed v req pod Hdecode originalPod Hget Hchanged), Hlist.
    rewrite (response_changed v' req' pod' Hd' originalPod Hg' Hc'), Hl'.
    reflexivity.
Qed.

(** A policy that selects the proposed labels but not the previous ones
    raises no warning. *)
Lemma Handle_checks_previous_labels_witness :
  warnings
    (response
       (Scenario.validator (Scenario.app "y") (Scenario.stored (Scenario.app "x"))
          (Ok [Scenario.policy "p" (Scenario.app "y") []]))
       Scenario.request) = [].
Proof.
  pose proof (Handle_checks_previous_labels
                (Scenario.validator (Scenario.app "y") (Scenario.stored (Scenario.app "x"))
                   (Ok [Scenario.policy "p" (Scenario.app "y") []]))
                Scenario.request
                (corev1.mkPod "web-0" "prod" (Scenario.app "y"))
                (corev1.mkPod "web-0" "prod" (Scenario.app "x"))
                [Scenario.policy "p" (Scenario.app "y") []]
                eq_refl eq_refl) as H.
  specialize (H ltac:(vm_compute; reflexivity) eq_refl).
  destruct H as [[H _] _].
  destruct (warnings _) as [|w ws] eqn:Hw in |- *; [reflexivity |].
  exfalso.
  destruct H as (np & Hin & Hm).
  - rewrite Hw. discriminate.
  - apply list_elem_of_singleton in Hin. subst np.
    vm_compute in Hm. discriminate Hm.
Defined.

(** C3 as stated fails: the nil map and the empty map hold the same (no)
    pairs, yet the detector reports a change between them. *)
Lemma DeepEqual_pairs_counterexample :
  ¬ (reflect.DeepEqual None (Some ∅) = true ↔ entries None = entries (Some ∅)).
Proof. intros [_ H]. specialize (H eq_refl). discriminate H. Qed.

(** C3, amended: the change detector reports no change exactly when the
    two label maps are both nil or both allocated and hold the same
    (key,value) pairs, whatever the order they are stored in; so it reports
    no change between a label map and itself, and a change between any two
    label maps that differ in a key or a value. *)
Theorem DeepEqual_same_pairs (previous proposed : GoMap) :
  (reflect.DeepEqual previous proposed = true
   ↔ (previous = None ↔ proposed = None) ∧ entries previous = entries proposed)
  ∧ reflect.DeepEqual previous previous = true
  ∧ ((∃ k, index previous k ≠ index proposed k) →
     reflect.DeepEqual previous proposed = false).
Proof.
  split; [| split].
  - rewrite DeepEqual_true_iff. apply GoMap_eq_iff.
  - apply DeepEqual_true_iff. reflexivity.
  - intros [k Hk]. apply DeepEqual_false_iff. intros ->. apply Hk. reflexivity.
Qed.

Lemma DeepEqual_same_pairs_witness :
  reflect.DeepEqual (Scenario.app "x") (Scenario.app "y") = false.
Proof.
  apply (DeepEqual_same_pairs (Scenario.app "x") (Scenario.app "y")).
  exists "app". vm_compute. discriminate.
Defined.

(** C4: a label set matches a selector iff every (k,v) the selector
    requires is in the label set with the very same value; keys of the
    label set the selector does not name play no part, so a label set that
    matches keeps matching when labels are added to it. *)
Theorem matchesLabels_spec (podslabels netPolLabels : GoMap) :
  (matchesLabels podslabels netPolLabels = true
   ↔ ∀ k v, index netPolLabels k = Some v → index podslabels k = Some v)
  ∧ (∀ more : GoMap,
       matchesLabels podslabels netPolLabels = true →
       entries podslabels ⊆ entries more →
       matchesLabels more netPolLabels = true).
Proof.
  split; [apply matchesLabels_iff |].
  intros more Hm Hsub. apply matchesLabels_iff. intros k v Hk.
  rewrite index_entries.
  eapply lookup_weaken; [| exact Hsub].
  rewrite <- index_entries. revert k v Hk. apply matchesLabels_iff, Hm.
Qed.

(** Matching compares values as exact strings: letter case matters. *)
Example matchesLabels_case_sensitive :
  matchesLabels (Scenario.app "X") (Scenario.app "x") = false
  ∧ matchesLabels (Some {[ "App" := "x" ]}) (Scenario.app "x") = false
  ∧ matchesLabels (Some {[ "app" := "x"; "tier" := "web" ]}) (Scenario.app "x") = true.
Proof. vm_compute. repeat split. Qed.

(** C5: the scan over the policies answers true iff at least one policy
    of the list has a selector matching the labels, answers false on the
    empty list, and gives the same answer on any reordering of the list. *)
Theorem ReferencedBy_spec (originalLabels : GoMap)
    (items items' : list networkingv1.NetworkPolicy)
    (Hperm : items ≡ₚ items') :
  (ReferencedBy originalLabels items = true
   ↔ ∃ networkPolicy, networkPolicy ∈ items
        ∧ matchesLabels originalLabels (selectorOf networkPolicy) = true)
  ∧ ReferencedBy originalLabels [] = false
  ∧ ReferencedBy originalLabels items = ReferencedBy originalLabels items'.
Proof.
  split; [apply ReferencedBy_true_iff |].
  split; [reflexivity |].
  apply ReferencedBy_Permutation, Hperm.
Qed.

Lemma ReferencedBy_spec_witness :
  ReferencedBy (Scenario.app "x")
    [Scenario.policy "p" (Scenario.app "z") []; Scenario.policy "q" (Scenario.app "x") []]
  = ReferencedBy (Scenario.app "x")
    [Scenario.policy "q" (Scenario.app "x") []; Scenario.policy "p" (Scenario.app "z") []].
Proof.
  apply (ReferencedBy_spec (Scenario.app "x")
           [Scenario.policy "p" (Scenario.app "z") []; Scenario.policy "q" (Scenario.app "x") []]
           [Scenario.policy "q" (Scenario.app "x") []; Scenario.policy "p" (Scenario.app "z") []]).
  apply Permutation_swap.
Defined.

(** C6: the new-pod allow is given only when the lookup of the original
    pod reports not-found.  Any other lookup error ends the decision with
    an error response (status 500, carrying the error text), which is not
    an allow; and a response that is the new-pod allow comes from a
    not-found error. *)
Theorem Handle_new_pod_only_on_not_found (v : PodValidator)
    (req : admission.Request) (pod : corev1.Pod)
    (Hdecode : admission.Decode (decoder v) req = Ok pod) :
  (∀ err, client.Get (Client v) (originalKey req) = Err err →
          errors.IsNotFound err = false →
          response v req = admission.Errored http.StatusInternalServerError err
          ∧ allowed (response v req) = false
          ∧ message (response v req) = Error err)
  ∧ (∀ err, client.Get (Client v) (originalKey req) = Err err →
            errors.IsNotFound err = true →
            response v req = admission.Allowed "New pod creation")
  ∧ (response v req = admission.Allowed "New pod creation" →
     ∃ err, client.Get (Client v) (originalKey req) = Err err
            ∧ errors.IsNotFound err = true).
Proof.
  split; [| split].
  - intros err Hget Hnf.
    rewrite (response_fetch_error v req pod Hdecode err Hget Hnf).
    repeat split.
  - intros err Hget Hnf. exact (response_not_found v req pod Hdecode err Hget Hnf).
  - intros Hnew.
    destruct (client.Get (Client v) (originalKey req)) as [originalPod|err] eqn:Hget.
    + exfalso.
      destruct (reflect.DeepEqual (corev1.Labels originalPod) (corev1.Labels pod)) eqn:Heq.
      * rewrite (response_unchanged v req pod Hdecode originalPod Hget Heq) in Hnew.
        discriminate Hnew.
      * rewrite (response_changed v req pod Hdecode originalPod Hget Heq) in Hnew.
        destruct (client.List (Client v) (corev1.Namespace pod)) as [items|err];
          [| discriminate Hnew].
        destruct (ReferencedBy (corev1.Labels originalPod) items); discriminate Hnew.
    + exists err. split; [reflexivity |].
      destruct (errors.IsNotFound err) eqn:Hnf; [reflexivity |].
      rewrite (response_fetch_error v req pod Hdecode err Hget Hnf) in Hnew.
      discriminate Hnew.
Qed.

Lemma Handle_new_pod_only_on_not_found_witness :
  allowed
    (response (Scenario.validator (Scenario.app "x") (Err Scenario.transient) (Ok []))
       Scenario.request) = false.
Proof.
  apply (proj1 (Handle_new_pod_only_on_not_found
                  (Scenario.validator (Scenario.app "x") (Err Scenario.transient) (Ok []))
                  Scenario.request
                  (corev1.mkPod "web-0" "prod" (Scenario.app "x"))
                  eq_refl)
               Scenario.transient eq_refl eq_refl).
Defined.

(** C7: when the original pod exists and its labels equal the proposed
    ones, the response is the allow with the message "No label changes
    detected", and the policy list plays no part: replacing the store's
    [List] by any other leaves the whole outcome of [Handle] unchanged. *)
Theorem Handle_unchanged_ignores_policies (v : PodValidator)
    (req : admission.Request) (pod originalPod : corev1.Pod)
    (Hdecode : admission.Decode (decoder v) req = Ok pod)
    (Hget : client.Get (Client v) (originalKey req) = Ok originalPod)
    (Hsame : reflect.DeepEqual (corev1.Labels originalPod) (corev1.Labels pod) = true) :
  response v req = admission.Allowed "No label changes detected"
  ∧ allowed (response v req) = true
  ∧ warnings (response v req) = []
  ∧ message (response v req) = "No label changes detected"
  ∧ ∀ list' : string → result (list networkingv1.NetworkPolicy),
      Handle (mkPodValidator (client.mkClient (client.Get (Client v)) list') (decoder v)) req
      = Handle v req.
Proof.
  rewrite (response_unchanged v req pod Hdecode originalPod Hget Hsame).
  repeat split.
  intros list'. unfold Handle, originalKey in *. cbn.
  rewrite Hdecode, Hget, Hsame. reflexivity.
Qed.

Lemma Handle_unchanged_ignores_policies_witness :
  response (Scenario.validator (Scenario.app "x") (Scenario.stored (Scenario.app "x"))
              (Ok [Scenario.policy "p" (Scenario.app "x") []]))
    Scenario.request
  = admission.Allowed "No label changes detected".
Proof.
  apply (Handle_unchanged_ignores_policies
           (Scenario.validator (Scenario.app "x") (Scenario.stored (Scenario.app "x"))
              (Ok [Scenario.policy "p" (Scenario.app "x") []]))
           Scenario.request
           (corev1.mkPod "web-0" "prod" (Scenario.app "x"))
           (corev1.mkPod "web-0" "prod" (Scenario.app "x"))
           eq_refl eq_refl).
  vm_compute. reflexivity.
Defined.

(** C8: a selector with no required pair, be it the nil or the empty map,
    matches every label set, the nil and the empty label set included. *)
Theorem matchesLabels_empty_selector (podslabels netPolLabels : GoMap)
    (Hempty : len netPolLabels = 0) :
  matchesLabels podslabels netPolLabels = true
  ∧ matchesLabels None netPolLabels = true
  ∧ matchesLabels (Some ∅) netPolLabels = true.
Proof.
  repeat split; apply matchesLabels_no_requirements, Hempty.
Qed.

Lemma matchesLabels_empty_selector_witness :
  matchesLabels (Scenario.app "x") (Some ∅) = true.
Proof.
  apply (matchesLabels_empty_selector (Scenario.app "x") (Some ∅)).
  vm_compute. reflexivity.
Defined.

(** C9: the scan reads only the [MatchLabels] of each policy's pod
    selector: two policy lists with the same [MatchLabels], whatever their
    [MatchExpressions], give the same answer.  Hence a policy without
    [MatchLabels] pairs, with or without expressions, matches every label
    set, and a pod whose labels changed receives the warning response as
    soon as such a policy is listed in its namespace. *)
Theorem Handle_ignores_MatchExpressions (v : PodValidator)
    (req : admission.Request) (pod originalPod : corev1.Pod)
    (items : list networkingv1.NetworkPolicy)
    (networkPolicy : networkingv1.NetworkPolicy)
    (Hdecode : admission.Decode (decoder v) req = Ok pod)
    (Hget : client.Get (Client v) (originalKey req) = Ok originalPod)
    (Hchanged : reflect.DeepEqual (corev1.Labels originalPod) (corev1.Labels pod) = false)
    (Hlist : client.List (Client v) (corev1.Namespace pod) = Ok items)
    (Hin : networkPolicy ∈ items)
    (Hempty : len (selectorOf networkPolicy) = 0) :
  (∀ (L : GoMap) (items1 items2 : list networkingv1.NetworkPolicy),
     map selectorOf items1 = map selectorOf items2 →
     ReferencedBy L items1 = ReferencedBy L items2)
  ∧ (∀ L : GoMap, matchesLabels L (selectorOf networkPolicy) = true)
  ∧ (∀ L : GoMap, ReferencedBy L items = true)
  ∧ response v req = AllowedWithWarning.
Proof.
  assert (Hmatch : ∀ L : GoMap, matchesLabels L (selectorOf networkPolicy) = true)
    by (intros L; apply matchesLabels_no_requirements, Hempty).
  assert (Href : ∀ L : GoMap, ReferencedBy L items = true).
  { intros L. apply ReferencedBy_true_iff. exists networkPolicy. split; [exact Hin | apply Hmatch]. }
  split; [| split; [| split]].
  - intros L items1 items2. apply ReferencedBy_selectors.
  - exact Hmatch.
  - exact Href.
  - rewrite (response_changed v req pod Hdecode originalPod Hget Hchanged), Hlist, Href.
    reflexivity.
Qed.

Lemma Handle_ignores_MatchExpressions_witness :
  response
    (Scenario.validator (Scenario.app "y") (Scenario.stored (Scenario.app "x"))
       (Ok [Scenario.policy "p" (Scenario.app "z") []; Scenario.exprOnly]))
    Scenario.request
  = AllowedWithWarning.
Proof.
  apply (Handle_ignores_MatchExpressions
           (Scenario.validator (Scenario.app "y") (Scenario.stored (Scenario.app "x"))
              (Ok [Scenario.policy "p" (Scenario.app "z") []; Scenario.exprOnly]))
           Scenario.request
           (corev1.mkPod "web-0" "prod" (Scenario.app "y"))
           (corev1.mkPod "web-0" "prod" (Scenario.app "x"))
           [Scenario.policy "p" (Scenario.app "z") []; Scenario.exprOnly]
           Scenario.exprOnly
           eq_refl eq_refl).
  - vm_compute. reflexivity.
  - reflexivity.
  - right. left.
  - reflexivity.
Defined.

(** C10: the change detector tells the nil label map from the allocated
    empty one.  When one of the original and the proposed label maps is
    nil and the other is empty, the two hold the same (no) pairs and yet
    [Handle] takes the changed branch: it lists the policies and scans them
    against the original pod's labels. *)
Theorem Handle_nil_vs_empty_labels (v : PodValidator) (req : admission.Request)
    (pod originalPod : corev1.Pod)
    (Hdecode : admission.Decode (decoder v) req = Ok pod)
    (Hget : client.Get (Client v) (originalKey req) = Ok originalPod)
    (Hlabels : (corev1.Labels originalPod = None ∧ corev1.Labels pod = Some ∅)
               ∨ (corev1.Labels originalPod = Some ∅ ∧ corev1.Labels pod = None)) :
  reflect.DeepEqual (corev1.Labels originalPod) (corev1.Labels pod) = false
  ∧ entries (corev1.Labels originalPod) = ∅
  ∧ entries (corev1.Labels pod) = ∅
  ∧ response v req =
      match client.List (Client v) (corev1.Namespace pod) with
      | Err err => admission.Errored http.StatusInternalServerError err
      | Ok items =>
          if ReferencedBy (corev1.Labels originalPod) items
          then AllowedWithWarning
          else admission.Allowed "Labels are not referenced in any NetworkPolicy"
      end.
Proof.
  assert (Hchanged :
    reflect.DeepEqual (corev1.Labels originalPod) (corev1.Labels pod) = false)
    by (destruct Hlabels as [[-> ->] | [-> ->]]; reflexivity).
  split; [exact Hchanged |].
  split; [destruct Hlabels as [[-> _] | [-> _]]; reflexivity |].
  split; [destruct Hlabels as [[_ ->] | [_ ->]]; reflexivity |].
  exact (response_changed v req pod Hdecode originalPod Hget Hchanged).
Qed.

Lemma Handle_nil_vs_empty_labels_witness :
  response
    (Scenario.validator (Some ∅) (Scenario.stored None)
       (Ok [Scenario.policy "p" (Scenario.app "x") []; Scenario.exprOnly]))
    Scenario.request
  = AllowedWithWarning.
Proof.
  apply (Handle_nil_vs_empty_labels
           (Scenario.validator (Some ∅) (Scenario.stored None)
              (Ok [Scenario.policy "p" (Scenario.app "x") []; Scenario.exprOnly]))
           Scenario.request
           (corev1.mkPod "web-0" "prod" (Some ∅))
           (corev1.mkPod "web-0" "prod" None)
           eq_refl eq_refl).
  left. split; reflexivity.
Defined.

(** * Further properties of the code *)

(** ** The matcher as an inclusion of label maps *)

Section MatcherOrder.

Implicit Types L S : GoMap.

Lemma matchesLabels_subseteq L S :
  matchesLabels L S = true ↔ entries S ⊆ entries L.
Proof.
  rewrite matchesLabels_iff, map_subseteq_spec.
  split; intros H k w Hk.
  - rewrite <- index_entries. apply H. rewrite index_entries. exact Hk.
  - rewrite index_entries. apply H. rewrite <- index_entries. exact Hk.
Qed.

Lemma len_zero_entries (m : GoMap) : len m = 0 ↔ entries m = ∅.
Proof.
  destruct m as [t|]; cbn.
  - apply map_size_empty_iff.
  - split; reflexivity.
Qed.

Lemma subseteq_empty_inv (t : gmap string string) : t ⊆ ∅ → t = ∅.
Proof.
  intros Hsub. apply map_empty. intros k.
  destruct (t !! k) as [w|] eqn:Hk; [| reflexivity].
  apply (lookup_weaken _ _ _ _ Hk) in Hsub.
  rewrite lookup_empty in Hsub. discriminate Hsub.
Qed.

End MatcherOrder.

(** ** A case analysis of [Handle] *)

Lemma response_cases (v : PodValidator) (req : admission.Request) :
  (∃ err, admission.Decode (decoder v) req = Err err
          ∧ response v req = admission.Errored http.StatusBadRequest err)
  ∨ ∃ pod, admission.Decode (decoder v) req = Ok pod
      ∧ ((∃ err, client.Get (Client v) (originalKey req) = Err err
                 ∧ errors.IsNotFound err = false
                 ∧ response v req = admission.Errored http.StatusInternalServerError err)
         ∨ (∃ err, client.Get (Client v) (originalKey req) = Err err
                   ∧ errors.IsNotFound err = true
                   ∧ response v req = admission.Allowed "New pod creation")
         ∨ ∃ originalPod, client.Get (Client v) (originalKey req) = Ok originalPod
             ∧ ((reflect.DeepEqual (corev1.Labels originalPod) (corev1.Labels pod) = true
                 ∧ response v req = admission.Allowed "No label changes detected")
                ∨ reflect.DeepEqual (corev1.Labels originalPod) (corev1.Labels pod) = false
                  ∧ ((∃ err, client.List (Client v) (corev1.Namespace pod) = Err err
                             ∧ response v req
                               = admission.Errored http.StatusInternalServerError err)
                     ∨ ∃ items, client.List (Client v) (corev1.Namespace pod) = Ok items
                         ∧ ((ReferencedBy (corev1.Labels originalPod) items = true
                             ∧ response v req = AllowedWithWarning)
                            ∨ (ReferencedBy (corev1.Labels originalPod) items = false
                               ∧ response v req
                                 = admission.Allowed
                                     "Labels are not referenced in any NetworkPolicy"))))).
Proof.
  destruct (admission.Decode (decoder v) req) as [pod|err] eqn:Hdecode.
  - right. exists pod. split; [reflexivity |].
    destruct (client.Get (Client v) (originalKey req)) as [originalPod|err] eqn:Hget.
    + right; right. exists originalPod. split; [reflexivity |].
      destruct (reflect.DeepEqual (corev1.Labels originalPod) (corev1.Labels pod)) eqn:Heq.
      * left. split; [reflexivity |]. exact (response_unchanged v req pod Hdecode _ Hget Heq).
      * right. split; [reflexivity |].
        rewrite (response_changed v req pod Hdecode _ Hget Heq).
        destruct (client.List (Client v) (corev1.Namespace pod)) as [items|err].
        -- right. exists items. split; [reflexivity |].
           destruct (ReferencedBy (corev1.Labels originalPod) items); [left | right];
             split; reflexivity.
        -- left. exists err. split; reflexivity.
    + destruct (errors.IsNotFound err) eqn:Hnf.
      * right; left. exists err. repeat split; [exact Hnf |].
        exact (response_not_found v req pod Hdecode err Hget Hnf).
      * left. exists err. repeat split; [exact Hnf |].
        exact (response_fetch_error v req pod Hdecode err Hget Hnf).
  - left. exists err. split; [reflexivity |].
    unfold response, Handle. rewrite Hdecode. reflexivity.
Qed.

(** Takes [response_cases] apart into its seven branches, rewriting the
    response in the goal. *)
Ltac response_branches v req :=
  destruct (response_cases v req) as
    [ (errD & HD & ->)
    | (pod & HD &
        [ (errG & HG & HNF & ->)
        | [ (errG & HG & HNF & ->)
          | (originalPod & HG &
              [ (HE & ->)
              | (HE & [ (errL & HL & ->)
                      | (items & HL & [ (HR & ->) | (HR & ->) ]) ]) ]) ] ]) ].

(** ** Failures of the collaborators *)

Lemma Handle_decode_error_cases (v : PodValidator) (req : admission.Request)
    (err : error) :
  admission.Decode (decoder v) req = Err err →
  response v req = admission.Errored http.StatusBadRequest err
  ∧ output v req = ["Error decoding pod: " +:+ Error err +:+ LF].
Proof.
  intros Hdecode. unfold response, output, Handle. rewrite Hdecode.
  split; reflexivity.
Qed.

(** X1: when the decoder fails, [Handle] answers with the error response
    of status 400 that carries the decoder's error text, prints the one
    line reporting it, and never turns to the store: with any other client
    the outcome is the same. *)
Theorem Handle_decode_error (v : PodValidator) (req : admission.Request)
    (err : error)
    (Hdecode : admission.Decode (decoder v) req = Err err) :
  response v req = admission.Errored http.StatusBadRequest err
  ∧ allowed (response v req) = false
  ∧ code (response v req) = 400%Z
  ∧ message (response v req) = Error err
  ∧ warnings (response v req) = []
  ∧ output v req = ["Error decoding pod: " +:+ Error err +:+ LF]
  ∧ ∀ c : client.Client, Handle (mkPodValidator c (decoder v)) req = Handle v req.
Proof.
  unfold response, output, Handle. cbn [decoder]. rewrite Hdecode.
  repeat split.
Qed.

Lemma Handle_decode_error_witness :
  code (response (NewPodValidator
                    (client.mkClient Cluster.getProd (Cluster.listStaging Scenario.transient))
                    (Cluster.failing (mkError "unexpected end of JSON input" false)))
          Scenario.request) = 400%Z.
Proof.
  apply (Handle_decode_error
           (NewPodValidator
              (client.mkClient Cluster.getProd (Cluster.listStaging Scenario.transient))
              (Cluster.failing (mkError "unexpected end of JSON input" false)))
           Scenario.request
           (mkError "unexpected end of JSON input" false)).
  reflexivity.
Defined.

(** X2: when the original pod exists and its labels changed but listing
    the policies fails, [Handle] answers with the error response of status
    500 carrying the listing error's text, with no warning; unlike for the
    lookup of the pod, a listing error classified as not-found is an error
    like any other. *)
Theorem Handle_list_error (v : PodValidator) (req : admission.Request)
    (pod originalPod : corev1.Pod) (err : error)
    (Hdecode : admission.Decode (decoder v) req = Ok pod)
    (Hget : client.Get (Client v) (originalKey req) = Ok originalPod)
    (Hchanged : reflect.DeepEqual (corev1.Labels originalPod) (corev1.Labels pod) = false)
    (Hlist : client.List (Client v) (corev1.Namespace pod) = Err err) :
  response v req = admission.Errored http.StatusInternalServerError err
  ∧ allowed (response v req) = false
  ∧ code (response v req) = 500%Z
  ∧ message (response v req) = Error err
  ∧ warnings (response v req) = []
  ∧ output v req
    = ["Received pod label validator request for " +:+ corev1.Name pod +:+ LF +:+ LF;
       "Error listing network policies: " +:+ Error err +:+ LF].
Proof.
  unfold response, output, Handle, originalKey in *.
  rewrite Hdecode, Hget, Hchanged, Hlist. repeat split.
Qed.

Lemma Handle_list_error_witness :
  allowed
    (response (Scenario.validator (Scenario.app "y") (Scenario.stored (Scenario.app "x"))
                 (Err Scenario.missing))
       Scenario.request) = false.
Proof.
  apply (Handle_list_error
           (Scenario.validator (Scenario.app "y") (Scenario.stored (Scenario.app "x"))
              (Err Scenario.missing))
           Scenario.request
           (corev1.mkPod "web-0" "prod" (Scenario.app "y"))
           (corev1.mkPod "web-0" "prod" (Scenario.app "x"))
           Scenario.missing
           eq_refl eq_refl).
  - vm_compute. reflexivity.
  - reflexivity.
Defined.

(** X3: the status of every response of [Handle] is 200, 400 or 500, and
    never the 403 of a denial; the response allows the request exactly
    when the status is 200, and the status is 400 exactly when the decoder
    failed. *)
Theorem Handle_status_codes (v : PodValidator) (req : admission.Request) :
  (code (response v req) = 200%Z ∨ code (response v req) = 400%Z
   ∨ code (response v req) = 500%Z)
  ∧ (allowed (response v req) = true ↔ code (response v req) = 200%Z)
  ∧ (code (response v req) = 400%Z
     ↔ ∃ err, admission.Decode (decoder v) req = Err err)
  ∧ (∀ reason, response v req ≠ admission.Denied reason).
Proof.
  split; [| split; [| split]].
  - response_branches v req; compute; auto.
  - response_branches v req; compute; split; intros Hx;
      first [reflexivity | discriminate Hx].
  - split.
    + response_branches v req; compute; intros Hc; try discriminate Hc.
      exists errD. exact HD.
    + intros [err Herr].
      response_branches v req; try (rewrite Herr in HD; discriminate HD).
      reflexivity.
  - intros reason.
    response_branches v req; intros Hden; discriminate Hden.
Qed.

(** X4: [Handle] refuses to decide exactly when a collaborator fails: the
    response is not an allow iff the decoder fails, or the lookup of the
    original pod fails with an error other than not-found, or the original
    pod exists with changed labels and listing the policies fails. *)
Theorem Handle_fails_iff_collaborator_fails (v : PodValidator)
    (req : admission.Request) :
  allowed (response v req) = false
  ↔ (∃ err, admission.Decode (decoder v) req = Err err)
    ∨ (∃ pod err,
         admission.Decode (decoder v) req = Ok pod
         ∧ client.Get (Client v) (originalKey req) = Err err
         ∧ errors.IsNotFound err = false)
    ∨ (∃ pod originalPod err,
         admission.Decode (decoder v) req = Ok pod
         ∧ client.Get (Client v) (originalKey req) = Ok originalPod
         ∧ reflect.DeepEqual (corev1.Labels originalPod) (corev1.Labels pod) = false
         ∧ client.List (Client v) (corev1.Namespace pod) = Err err).
Proof.
  split.
  - response_branches v req; cbn; intros Hall; try discriminate Hall.
    + left. exists errD. exact HD.
    + right; left. exists pod, errG. auto.
    + right; right. exists pod, originalPod, errL. auto.
  - intros [[err Hd] | [(pod' & err & Hd & Hg & Hnf) | (pod' & orig & err & Hd & Hg & Hc & Hl)]].
    + destruct (Handle_decode_error_cases v req err Hd) as [-> _]. reflexivity.
    + rewrite (response_fetch_error v req pod' Hd err Hg Hnf). reflexivity.
    + rewrite (response_changed v req pod' Hd orig Hg Hc), Hl. reflexivity.
Qed.

(** ** What [Handle] reads from the store *)

(** X5: [Handle] consults the store at two places only: the pod under the
    request's namespace and name, and the policies of the namespace the
    decoded pod carries (not the request's).  Two clients that agree there
    give the same printed lines and the same response. *)
Theorem Handle_store_footprint (c1 c2 : client.Client) (d : admission.Decoder)
    (req : admission.Request)
    (Hget : client.Get c1 (originalKey req) = client.Get c2 (originalKey req))
    (Hlist : ∀ pod, admission.Decode d req = Ok pod →
                    client.List c1 (corev1.Namespace pod)
                    = client.List c2 (corev1.Namespace pod)) :
  Handle (NewPodValidator c1 d) req = Handle (NewPodValidator c2 d) req.
Proof.
  unfold Handle, NewPodValidator, originalKey in *. cbn [Client decoder].
  destruct (admission.Decode d req) as [pod|err]; [| reflexivity].
  rewrite Hget, (Hlist pod eq_refl). reflexivity.
Qed.

(** The request names namespace "prod", the decoded pod "staging": the
    two stores differ on the policies of every namespace but "staging". *)
Lemma Handle_store_footprint_witness :
  Handle (NewPodValidator
            (client.mkClient Cluster.getProd (Cluster.listStaging Scenario.transient))
            Cluster.decodeStaging) Scenario.request
  = Handle (NewPodValidator
              (client.mkClient Cluster.getProd (Cluster.listStaging Scenario.missing))
              Cluster.decodeStaging) Scenario.request.
Proof.
  apply (Handle_store_footprint
           (client.mkClient Cluster.getProd (Cluster.listStaging Scenario.transient))
           (client.mkClient Cluster.getProd (Cluster.listStaging Scenario.missing))
           Cluster.decodeStaging Scenario.request).
  - reflexivity.
  - intros pod Hpod. injection Hpod as <-. reflexivity.
Defined.

(** ** When the warning is given *)

(** X6: the response of [Handle] carries a warning only in one situation:
    the decoder yields a pod, the original pod exists, its labels differ
    from the proposed ones, the policies are listed and one of them
    references the original labels.  The warning is then the single fixed
    text, on an allow of status 200 with an empty message. *)
Theorem Handle_warns_iff (v : PodValidator) (req : admission.Request) :
  (warnings (response v req) ≠ []
   ↔ ∃ pod originalPod items,
       admission.Decode (decoder v) req = Ok pod
       ∧ client.Get (Client v) (originalKey req) = Ok originalPod
       ∧ reflect.DeepEqual (corev1.Labels originalPod) (corev1.Labels pod) = false
       ∧ client.List (Client v) (corev1.Namespace pod) = Ok items
       ∧ ReferencedBy (corev1.Labels originalPod) items = true)
  ∧ (warnings (response v req) ≠ [] →
     warnings (response v req) = ["Pod labels are referenced in a NetworkPolicy"]
     ∧ allowed (response v req) = true
     ∧ code (response v req) = 200%Z
     ∧ message (response v req) = "").
Proof.
  split; [split |].
  - response_branches v req; cbn; intros Hw; try (exfalso; apply Hw; reflexivity).
    exists pod, originalPod, items. auto.
  - intros (pod' & orig & items' & Hd & Hg & Hc & Hl & Hr).
    rewrite (response_changed v req pod' Hd orig Hg Hc), Hl, Hr. discriminate.
  - response_branches v req; cbn; intros Hw; try (exfalso; apply Hw; reflexivity).
    repeat split.
Qed.

Lemma Handle_warns_iff_witness :
  warnings
    (response
       (Scenario.validator (Scenario.app "y") (Scenario.stored (Scenario.app "x"))
          (Ok [Scenario.policy "p" (Scenario.app "x") []]))
       Scenario.request)
  = ["Pod labels are referenced in a NetworkPolicy"].
Proof.
  apply (proj2 (Handle_warns_iff
                  (Scenario.validator (Scenario.app "y") (Scenario.stored (Scenario.app "x"))
                     (Ok [Scenario.policy "p" (Scenario.app "x") []]))
                  Scenario.request)).
  vm_compute. discriminate.
Defined.


(** ** Construction and decoder injection *)


(** ** The matcher and the scan as relations on label maps *)



(** X10: matching orders label maps by inclusion of their pairs: every
    label map matches itself taken as a selector, matching is transitive,
    and two label maps match each other exactly when they hold the same
    pairs. *)
Theorem matchesLabels_order (A B C : GoMap) :
  matchesLabels A A = true
  ∧ (matchesLabels A B = true → matchesLabels B C = true → matchesLabels A C = true)
  ∧ (matchesLabels A B = true ∧ matchesLabels B A = true ↔ entries A = entries B).
Proof.
  rewrite !matchesLabels_subseteq. split; [reflexivity |]. split.
  - intros HBA HCB. etransitivity; eassumption.
  - split.
    + intros [HBA HAB]. apply (anti_symm (⊆)); assumption.
    + intros ->. split; reflexivity.
Qed.

Lemma matchesLabels_order_witness :
  matchesLabels (Some {[ "app" := "x"; "tier" := "web"; "zone" := "a" ]}) (Scenario.app "x")
  = true.
Proof.
  destruct (matchesLabels_order
              (Some {[ "app" := "x"; "tier" := "web"; "zone" := "a" ]})
              (Some {[ "app" := "x"; "tier" := "web" ]})
              (Scenario.app "x")) as (_ & Htrans & _).
  apply Htrans; vm_compute; reflexivity.
Defined.

(** X11: a pod without labels (a nil or an empty label map) matches a
    selector only if the selector requires nothing; so the scan finds such
    a pod referenced exactly when some listed policy has no [MatchLabels]
    pair. *)
Theorem unlabelled_pod_referenced_iff (L : GoMap)
    (items : list networkingv1.NetworkPolicy)
    (Hempty : len L = 0) :
  (∀ S : GoMap, matchesLabels L S = true ↔ len S = 0)
  ∧ (ReferencedBy L items = true
     ↔ ∃ networkPolicy, networkPolicy ∈ items ∧ len (selectorOf networkPolicy) = 0).
Proof.
  assert (Hm : ∀ S : GoMap, matchesLabels L S = true ↔ len S = 0).
  { intros S. rewrite matchesLabels_subseteq, len_zero_entries.
    apply len_zero_entries in Hempty. rewrite Hempty. split.
    - apply subseteq_empty_inv.
    - intros ->. reflexivity. }
  split; [exact Hm |].
  rewrite ReferencedBy_true_iff.
  split; intros (np & Hin & Hnp); exists np; (split; [exact Hin |]); apply Hm, Hnp.
Qed.

Lemma unlabelled_pod_referenced_iff_witness :
  ReferencedBy (Some ∅) [Scenario.policy "p" (Scenario.app "x") []; Scenario.exprOnly]
  = true.
Proof.
  assert (Hempty : len (Some ∅) = 0)
    by (vm_compute; reflexivity).
  apply (unlabelled_pod_referenced_iff (Some ∅)
           [Scenario.policy "p" (Scenario.app "x") []; Scenario.exprOnly] Hempty).
  exists Scenario.exprOnly. split; [right; left | reflexivity].
Defined.

(** X12: the scan of a concatenated policy list is the disjunction of the
    scans of its parts; hence listing further policies, before or after,
    never turns a referenced label map into an unreferenced one. *)
Theorem ReferencedBy_app (L : GoMap) (items more : list networkingv1.NetworkPolicy) :
  ReferencedBy L (items ++ more) = ReferencedBy L items || ReferencedBy L more
  ∧ (ReferencedBy L items = true → ReferencedBy L (items ++ more) = true)
  ∧ (ReferencedBy L items = true → ReferencedBy L (more ++ items) = true).
Proof.
  assert (Happ : ∀ l1 l2, ReferencedBy L (l1 ++ l2) = ReferencedBy L l1 || ReferencedBy L l2).
  { intros l1 l2. induction l1 as [|np rest IH]; [reflexivity |].
    cbn [app ReferencedBy].
    destruct (matchesLabels L _); [reflexivity | exact IH]. }
  split; [apply Happ |]. split; intros Href; rewrite Happ, Href.
  - reflexivity.
  - apply orb_true_r.
Qed.

Lemma ReferencedBy_app_witness :
  ReferencedBy (Scenario.app "x")
    ([Scenario.policy "q" (Scenario.app "z") []] ++ [Scenario.policy "p" (Scenario.app "x") []])
  = true.
Proof.
  apply (ReferencedBy_app (Scenario.app "x")
           [Scenario.policy "p" (Scenario.app "x") []]
           [Scenario.policy "q" (Scenario.app "z") []]).
  vm_compute. reflexivity.
Defined.

(** X13: labels only add references: if a label map holds all the pairs of
    another, every policy list that references the smaller one references
    the larger one too. *)
Theorem ReferencedBy_more_labels (L L' : GoMap)
    (items : list networkingv1.NetworkPolicy)
    (Hsub : entries L ⊆ entries L')
    (Href : ReferencedBy L items = true) :
  ReferencedBy L' items = true.
Proof.
  apply ReferencedBy_true_iff. apply ReferencedBy_true_iff in Href as (np & Hin & Hm).
  exists np. split; [exact Hin |].
  apply matchesLabels_subseteq. apply matchesLabels_subseteq in Hm.
  etransitivity; eassumption.
Qed.

Lemma ReferencedBy_more_labels_witness :
  ReferencedBy (Some {[ "app" := "x"; "tier" := "web" ]})
    [Scenario.policy "p" (Scenario.app "x") []] = true.
Proof.
  apply (ReferencedBy_more_labels (Scenario.app "x")
           (Some {[ "app" := "x"; "tier" := "web" ]})
           [Scenario.policy "p" (Scenario.app "x") []]).
  - apply matchesLabels_subseteq. vm_compute. reflexivity.
  - vm_compute. reflexivity.
Defined.

(** ** The change detector is symmetric *)

(** X14: although the comparison walks the keys of its first argument
    only, its answer does not depend on the order of the arguments; and
    two label maps it finds equal compare alike with any third one. *)
Theorem DeepEqual_symmetric (previous proposed third : GoMap) :
  reflect.DeepEqual previous proposed = reflect.DeepEqual proposed previous
  ∧ (reflect.DeepEqual previous proposed = true →
     reflect.DeepEqual proposed third = reflect.DeepEqual previous third).
Proof.
  split.
  - apply eq_true_iff_eq. rewrite !DeepEqual_true_iff. split; congruence.
  - intros Heq. apply DeepEqual_true_iff in Heq. subst proposed. reflexivity.
Qed.

Lemma DeepEqual_symmetric_witness :
  reflect.DeepEqual (Scenario.app "x") (Some {[ "app" := "x"; "tier" := "web" ]})
  = reflect.DeepEqual (Some {[ "app" := "x"; "tier" := "web" ]}) (Scenario.app "x").
Proof.
  exact (proj1 (DeepEqual_symmetric (Scenario.app "x")
                  (Some {[ "app" := "x"; "tier" := "web" ]}) None)).
Defined.

(** ** When the policies are listed *)

(** X15: the policies are listed only for an existing pod whose labels
    changed.  In every other run (the decoder fails, the lookup fails or
    reports not-found, or the labels are unchanged) the store's [List] is
    not consulted: replacing it by any other leaves the printed lines and
    the response as they are. *)
Theorem Handle_lists_only_when_changed (v : PodValidator) (req : admission.Request)
    (Hother : ¬ ∃ pod originalPod,
                admission.Decode (decoder v) req = Ok pod
                ∧ client.Get (Client v) (originalKey req) = Ok originalPod
                ∧ reflect.DeepEqual (corev1.Labels originalPod) (corev1.Labels pod) = false)
    (list' : string → result (list networkingv1.NetworkPolicy)) :
  Handle (mkPodValidator (client.mkClient (client.Get (Client v)) list') (decoder v)) req
  = Handle v req.
Proof.
  unfold Handle, originalKey in *. cbn [Client decoder client.Get client.List].
  destruct (admission.Decode (decoder v) req) as [pod|errD]; [| reflexivity].
  destruct (client.Get (Client v) _) as [originalPod|errG]; [| reflexivity].
  destruct (reflect.DeepEqual (corev1.Labels originalPod) (corev1.Labels pod)) eqn:Heq;
    [reflexivity |].
  exfalso. apply Hother. exists pod, originalPod. auto.
Qed.

Lemma Handle_lists_only_when_changed_witness :
  Handle (Scenario.validator (Scenario.app "x") (Err Scenario.missing)
            (Err Scenario.transient)) Scenario.request
  = Handle (Scenario.validator (Scenario.app "x") (Err Scenario.missing) (Ok []))
      Scenario.request.
Proof.
  apply (Handle_lists_only_when_changed
           (Scenario.validator (Scenario.app "x") (Err Scenario.missing) (Ok []))
           Scenario.request).
  intros (pod & originalPod & _ & Hget & _). discriminate Hget.
Defined.
